(** * pandera.typing.pyspark: the pydantic integration of the pyspark wrapper types

    A shallow embedding of [pandera/typing/pyspark.py].  The file is a thin
    adapter: three wrapper classes that are created only when
    [pyspark.pandas] can be imported, and a mixin whose class methods turn a
    schema model into a pydantic validator.  The collaborators the adapter
    calls ([schema_model.to_schema()], [schema.validate(obj, lazy=...)]) live
    elsewhere in pandera; they are section variables here, and every call the
    adapter makes to them is recorded in a trace. *)

From Stdlib Require Import String Ascii List Bool.
From stdpp Require Import base strings list gmap.
Import ListNotations.

Set Warnings "-register-all".

Local Open Scope string_scope.

(** ** Python values *)

Module Py.

(** What [getattr(t, '__parameters__', ())] is for an object [t]: the
    default (no such attribute), an iterable that yields [items], or an
    object of type [type_name] that cannot be iterated. *)
Inductive ParametersAttr (A : Type) : Type :=
| NoParameters
| IterableParameters (items : list A)
| NotIterable (type_name : string).
Arguments NoParameters {A}.
Arguments IterableParameters {A} items.
Arguments NotIterable {A} type_name.

(** The objects the adapter handles.  A tuple is kept apart from the other
    values because [typing._GenericAlias] and [typing.get_args] treat it
    specially; so are the objects [typing] tells apart when it builds an
    alias.  [VName] and [VClass] stand for classes, modules and functions:
    none of them is [typing._TypingEllipsis], and none carries a
    [__parameters__] that cannot be iterated; what an imported object adds
    to the [__parameters__] of an alias is left out. *)
Inductive PyVal : Type :=
| VNone
| VBool (b : bool)
| VStr (s : string)
| VTuple (items : list PyVal)
| VName (qualname : string)                  (* an imported object, by dotted path *)
| VClass (name : string)                     (* a class created by this module *)
| VAlias (origin : PyVal) (args : list PyVal)  (* a typing._GenericAlias instance *)
| VData (id : nat)                           (* a data object, e.g. a dataframe *)
| VEllipsis                                  (* the builtin [...] *)
| VTypingEllipsis                            (* the class typing._TypingEllipsis *)
| VTypeVar (name : string)                   (* a TypeVar: it has __typing_subst__ *)
| VObject (id : nat) (parameters : ParametersAttr PyVal).  (* any other object *)

(** Python truthiness of the values above. *)
Definition truthy (v : PyVal) : bool :=
  match v with
  | VNone => false
  | VBool b => b
  | VStr s => negb (Nat.eqb (String.length s) 0)
  | VTuple items => negb (Nat.eqb (length items) 0)
  | _ => true
  end.

(** An exception object: the names of the classes in its MRO (its own class
    first), the text [str(exc)] gives, and [__cause__]. *)
Inductive PyExc : Type :=
| MkExc (mro : list string) (text : string) (cause : option PyExc).

Definition exc_mro (e : PyExc) : list string := let 'MkExc m _ _ := e in m.
Definition exc_str (e : PyExc) : string := let 'MkExc _ s _ := e in s.
Definition exc_cause (e : PyExc) : option PyExc := let 'MkExc _ _ c := e in c.

(** [isinstance(e, cls)], as an [except cls] clause tests it. *)
Definition isinstance (e : PyExc) (cls : string) : bool :=
  existsb (String.eqb cls) (exc_mro e).

Definition exception_bases : list string := ["Exception"; "BaseException"; "object"].

Definition ValueError (msg : string) : PyExc := MkExc ("ValueError" :: exception_bases) msg None.
Definition TypeError (msg : string) : PyExc := MkExc ("TypeError" :: exception_bases) msg None.
Definition AttributeError (msg : string) : PyExc :=
  MkExc ("AttributeError" :: exception_bases) msg None.
Definition IndexError (msg : string) : PyExc :=
  MkExc ("IndexError" :: "LookupError" :: exception_bases) msg None.
Definition NameError (name : string) : PyExc :=
  MkExc ("NameError" :: exception_bases) ("name '" +:+ name +:+ "' is not defined") None.
Definition ModuleNotFoundError (msg : string) : PyExc :=
  MkExc ("ModuleNotFoundError" :: "ImportError" :: exception_bases) msg None.

(** pandera.errors: [SchemaInitError(Exception)],
    [SchemaError(ReducedPickleExceptionBase)] and, for lazy validation,
    [SchemaErrors(ReducedPickleExceptionBase)]. *)
Definition SchemaInitError (msg : string) : PyExc :=
  MkExc ("SchemaInitError" :: exception_bases) msg None.
Definition SchemaError (msg : string) : PyExc :=
  MkExc ("SchemaError" :: "ReducedPickleExceptionBase" :: exception_bases) msg None.
Definition SchemaErrors (msg : string) : PyExc :=
  MkExc ("SchemaErrors" :: "ReducedPickleExceptionBase" :: exception_bases) msg None.

(** [raise new from exc]: the new exception with [__cause__] set. *)
Definition from_exc (new exc : PyExc) : PyExc :=
  MkExc (exc_mro new) (exc_str new) (Some exc).

(** The outcome of evaluating an expression or a call. *)
Inductive result (A : Type) : Type :=
| Ret (a : A)
| Raise (e : PyExc).
Arguments Ret {A} a.
Arguments Raise {A} e.

Definition rbind {A B} (r : result A) (k : A -> result B) : result B :=
  match r with
  | Ret a => k a
  | Raise e => Raise e
  end.

(** Whether an outcome is a value. *)
Definition returns {A} (r : result A) : bool :=
  match r with
  | Ret _ => true
  | Raise _ => false
  end.

(** [t[i]] on a tuple. *)
Definition tuple_getitem (t : list PyVal) (i : nat) : result PyVal :=
  match nth_error t i with
  | Some v => Ret v
  | None => Raise (IndexError "tuple index out of range")
  end.

Definition newline : string := String (Ascii.ascii_of_nat 10) EmptyString.

End Py.
Export Py.

Notation "'get' x <- e ; k" := (rbind e (fun x => k))
  (at level 10, x name, e at level 100, k at level 200, only parsing).

(** ** Traced computations

    The adapter is straight-line code around two calls to its collaborators.
    A computation is the list of collaborator calls it evaluated, in order,
    and its outcome: [CallToSchema m] for [m.to_schema()], and
    [CallValidate schema obj lazy] for [schema.validate(obj, lazy=lazy)]. *)

Inductive Event : Type :=
| CallToSchema (schema_model : PyVal)
| CallValidate (schema obj : PyVal) (lazy : bool).

Definition Eff (A : Type) : Type := (list Event * result A)%type.

Definition eret {A} (a : A) : Eff A := ([], Ret a).
Definition eraise {A} (e : PyExc) : Eff A := ([], Raise e).
Definition elift {A} (r : result A) : Eff A := ([], r).

Definition ebind {A B} (m : Eff A) (k : A -> Eff B) : Eff B :=
  match m with
  | (t, Ret a) => let '(t', r) := k a in ((t ++ t')%list, r)
  | (t, Raise e) => (t, Raise e)
  end.

(** [try: body / except exc_class as exc: handler exc] *)
Definition try_except {A} (body : Eff A) (exc_class : string)
    (handler : PyExc -> Eff A) : Eff A :=
  match body with
  | (t, Raise e) =>
      if isinstance e exc_class
      then let '(t', r) := handler e in ((t ++ t')%list, r)
      else (t, Raise e)
  | other => other
  end.

Notation "'do' x <- e ; k" := (ebind e (fun x => k))
  (at level 10, x name, e at level 100, k at level 200, only parsing).

Definition trace {A} (m : Eff A) : list Event := fst m.
Definition outcome {A} (m : Eff A) : result A := snd m.

(** ** The pydantic field descriptor (pydantic < 2)

    [ModelField.type_] and [ModelField.sub_fields]; the latter is
    [Optional[List[ModelField]]]. *)

Inductive ModelField : Type :=
| MkField (type_ : PyVal) (sub_fields : option (list ModelField)).

Definition type_ (f : ModelField) : PyVal := let 'MkField t _ := f in t.
Definition sub_fields (f : ModelField) : option (list ModelField) :=
  let 'MkField _ s := f in s.

(** Truthiness of [field.sub_fields]: [None] and the empty list are falsy. *)
Definition sub_fields_truthy (f : ModelField) : bool :=
  match sub_fields f with
  | None | Some [] => false
  | Some (_ :: _) => true
  end.

(** [field.sub_fields[0]] *)
Definition sub_fields_getitem0 (f : ModelField) : result ModelField :=
  match sub_fields f with
  | None => Raise (TypeError "'NoneType' object is not subscriptable")
  | Some [] => Raise (IndexError "list index out of range")
  | Some (f0 :: _) => Ret f0
  end.

(** ** typing: generic aliases *)

(** [isinstance(t, type)].  An imported object ([VName]) may be a class or
    not; it is sent through the last branch of the loop of
    [_collect_parameters], where it adds nothing either, as a class does. *)
Definition is_type (t : PyVal) : bool :=
  match t with
  | VClass _ | VTypingEllipsis => true
  | _ => false
  end.

(** [hasattr(t, '__typing_subst__')] *)
Definition has_typing_subst (t : PyVal) : bool :=
  match t with
  | VTypeVar _ => true
  | _ => false
  end.

(** [a == b] on the values of this model. *)
Fixpoint PyVal_eqb (a b : PyVal) {struct a} : bool :=
  let fix all_eqb (l1 l2 : list PyVal) {struct l1} : bool :=
    match l1, l2 with
    | [], [] => true
    | x :: l1', y :: l2' => PyVal_eqb x y && all_eqb l1' l2'
    | _, _ => false
    end in
  match a, b with
  | VNone, VNone => true
  | VBool x, VBool y => Bool.eqb x y
  | VStr x, VStr y => String.eqb x y
  | VTuple xs, VTuple ys => all_eqb xs ys
  | VName x, VName y => String.eqb x y
  | VClass x, VClass y => String.eqb x y
  | VAlias o1 xs, VAlias o2 ys => PyVal_eqb o1 o2 && all_eqb xs ys
  | VData x, VData y => Nat.eqb x y
  | VEllipsis, VEllipsis => true
  | VTypingEllipsis, VTypingEllipsis => true
  | VTypeVar x, VTypeVar y => String.eqb x y
  | VObject x _, VObject y _ => Nat.eqb x y
  | _, _ => false
  end.

(** [if x not in parameters: parameters.append(x)] *)
Definition add_parameter (parameters : list PyVal) (x : PyVal) : list PyVal :=
  if existsb (PyVal_eqb x) parameters then parameters else (parameters ++ [x])%list.

(** The [__parameters__] an alias holds: what [_collect_parameters] gave for
    its arguments when it was built. *)
Fixpoint alias_parameters (t : PyVal) : list PyVal :=
  match t with
  | VAlias _ args =>
      (fix collect (args parameters : list PyVal) {struct args} : list PyVal :=
         match args with
         | [] => parameters
         | a :: rest =>
             collect rest
               (if is_type a then parameters
                else if has_typing_subst a then add_parameter parameters a
                else fold_left add_parameter
                       match a with
                       | VAlias _ _ => alias_parameters a
                       | VObject _ (IterableParameters xs) => xs
                       | _ => []
                       end parameters)
         end) args []
  | _ => []
  end.

(** [for x in getattr(t, '__parameters__', ())]: the elements the loop runs
    over, or the [TypeError] of iterating what is not iterable. *)
Definition iter_parameters (t : PyVal) : result (list PyVal) :=
  match t with
  | VAlias _ _ => Ret (alias_parameters t)
  | VObject _ (IterableParameters xs) => Ret xs
  | VObject _ (NotIterable type_name) =>
      Raise (TypeError ("'" +:+ type_name +:+ "' object is not iterable"))
  | _ => Ret []
  end.

(** The loop of [typing._collect_parameters], from the parameters found so
    far. *)
Fixpoint collect_parameters_from (args parameters : list PyVal)
    : result (list PyVal) :=
  match args with
  | [] => Ret parameters
  | t :: rest =>
      if is_type t then collect_parameters_from rest parameters
      else if has_typing_subst t
      then collect_parameters_from rest (add_parameter parameters t)
      else get xs <- iter_parameters t;
           collect_parameters_from rest (fold_left add_parameter xs parameters)
  end.

(** [typing._collect_parameters(args)] *)
Definition _collect_parameters (args : list PyVal) : result (list PyVal) :=
  collect_parameters_from args [].

(** [... if a is _TypingEllipsis else a] *)
Definition stored_arg (a : PyVal) : PyVal :=
  match a with
  | VTypingEllipsis => VEllipsis
  | _ => a
  end.

(** [typing._GenericAlias(origin, args)], which [pandera.typing.pandas]
    re-exports.  Arguments that are not a tuple are wrapped in a 1-tuple;
    [__args__] holds them with [typing._TypingEllipsis] replaced by [...];
    [__parameters__] is what [_collect_parameters] gives, which raises on an
    argument whose [__parameters__] cannot be iterated.  The alias keeps
    [__origin__] and [__args__]; its [__parameters__] are recomputed by
    [alias_parameters].  The origin is the subscripted class, for which
    [origin.__module__] exists. *)
Definition _GenericAlias (origin args : PyVal) : result PyVal :=
  let args := match args with
              | VTuple items => items
              | _ => [args]
              end in
  get _parameters <- _collect_parameters args;
  Ret (VAlias origin (map stored_arg args)).

(** [typing.get_args]: the [__args__] of a generic alias, [()] for anything
    else. *)
Definition get_args (tp : PyVal) : list PyVal :=
  match tp with
  | VAlias _ args => args
  | _ => []
  end.

Definition is_tuple (v : PyVal) : bool :=
  match v with
  | VTuple _ => true
  | _ => false
  end.

(** A class, one of this module or an imported one: what a schema model and
    a dtype are. *)
Definition is_class (v : PyVal) : bool :=
  match v with
  | VClass _ | VName _ => true
  | _ => false
  end.

(** ** _PydanticIntegrationMixIn *)

(** What [core_schema.no_info_plain_validator_function(f)] builds: a core
    schema whose validation is the call [f(obj)]. *)
Inductive CoreSchema : Type :=
| no_info_plain_validator_function (function : PyVal -> Eff PyVal).

Definition run_validator (cs : CoreSchema) (obj : PyVal) : Eff PyVal :=
  let 'no_info_plain_validator_function f := cs in f obj.

(** [functools.partial(f, schema_model=m)], later called with one positional
    argument. *)
Definition functools_partial (f : PyVal -> PyVal -> Eff PyVal) (schema_model : PyVal)
    : PyVal -> Eff PyVal :=
  fun obj => f obj schema_model.

(** The first lines of the message built at lines 78-81, up to and including
    the newline that precedes the original error. *)
Definition guidance (cls_name : string) : string :=
  "Cannot use " +:+ cls_name +:+ " as a pydantic type as its "
  +:+ "DataFrameModel cannot be converted to a DataFrameSchema." +:+ newline
  +:+ "Please revisit the model to address the following errors:"
  +:+ newline.

Section Adapter.

(** [schema_model.to_schema()]: attribute lookup and call. *)
Variable to_schema : PyVal -> result PyVal.
(** [schema.validate(obj, lazy=lazy)]: attribute lookup and call. *)
Variable validate : PyVal -> PyVal -> bool -> result PyVal.

Definition call_to_schema (schema_model : PyVal) : Eff PyVal :=
  ([CallToSchema schema_model], to_schema schema_model).

Definition call_validate (schema obj : PyVal) (lazy : bool) : Eff PyVal :=
  ([CallValidate schema obj lazy], validate schema obj lazy).

(** The class methods take [cls], the class they are called on; only its
    [__name__] is used, so [cls] is that name. *)

Definition _get_schema_model (cls : string) (field : ModelField) : result PyVal :=
  if negb (sub_fields_truthy field)
  then Raise (TypeError
         ("Expected a typed pandera.typing.DataFrame," +:+ " e.g. DataFrame[Schema]"))
  else
    get f0 <- sub_fields_getitem0 field;
    let schema_model := type_ f0 in
    Ret schema_model.

Definition pydantic_validate (cls : string) (obj schema_model : PyVal) : Eff PyVal :=
  do schema <- try_except (call_to_schema schema_model) "SchemaInitError"
                 (fun exc => eraise (from_exc
                    (ValueError (guidance cls +:+ exc_str exc)) exc));
  do valid_data <- try_except (call_validate schema obj false) "SchemaError"
                     (fun exc => eraise (from_exc (ValueError (exc_str exc)) exc));
  eret valid_data.

Definition _pydantic_validate (cls : string) (obj : PyVal) (field : ModelField)
    : Eff PyVal :=
  do schema_model <- elift (_get_schema_model cls field);
  pydantic_validate cls obj schema_model.

(** pydantic >= 2 *)
Definition __get_pydantic_core_schema__ (cls : string) (_source_type _handler : PyVal)
    : result CoreSchema :=
  get schema_model <- tuple_getitem (get_args _source_type) 0;
  Ret (no_info_plain_validator_function
         (functools_partial (pydantic_validate cls) schema_model)).

(** pydantic < 2: the generator yields one validator. *)
Definition __get_validators__ (cls : string)
    : list (PyVal -> ModelField -> Eff PyVal) :=
  [_pydantic_validate cls].

(** [obj] satisfies [schema]: eager validation raises nothing and hands
    [obj] back, the interface [validate(obj, lazy) -> obj | raises
    SchemaError] of the collaborator. *)
Definition satisfies (schema obj : PyVal) : Prop :=
  validate schema obj false = Ret obj.

(** [obj] violates [schema]: eager validation raises a [SchemaError]. *)
Definition violates (schema obj : PyVal) (e : PyExc) : Prop :=
  validate schema obj false = Raise e /\ isinstance e "SchemaError" = true.

End Adapter.

(** ** The wrapper classes *)

Module DataFrame.
(** Line 116: "Define this to override's pyspark.pandas generic type." *)
Definition __class_getitem__ (cls item : PyVal) : result PyVal :=
  _GenericAlias cls item.
End DataFrame.

Module Series.
(** Line 127: "Define this to override pyspark.pandas generic type" *)
Definition __class_getitem__ (cls item : PyVal) : result PyVal :=
  _GenericAlias cls item.
End Series.

(** ** Executing the module

    What [import pandera.typing.pyspark] does, statement by statement, on the
    module's global namespace.  The file has no
    [from __future__ import annotations], so a [def] evaluates its
    annotations when it is executed (Python before 3.14). *)

(** What a class statement leaves behind: the bases, the class body's own
    [__class_getitem__] when it defines one, and the names of the other
    functions of the body. *)
Record ClassDef : Type := {
  class_name : string;
  class_bases : list PyVal;
  class_getitem : option (PyVal -> PyVal -> result PyVal);
  class_functions : list string
}.

Inductive Binding : Type :=
| BVal (v : PyVal)
| BClass (c : ClassDef).

(** The environment of the import: how [import pyspark.pandas] ends, and the
    flag [pandera.engines.PYDANTIC_V2].  The imports of lines 2-16 are taken
    to succeed. *)
Record ImportEnv : Type := {
  import_pyspark_pandas : result PyVal;
  engines_PYDANTIC_V2 : bool
}.

Definition value_of (b : Binding) : PyVal :=
  match b with
  | BVal v => v
  | BClass c => VClass (class_name c)
  end.

(** Reading a global name. *)
Definition load_name (g : gmap string Binding) (x : string) : result PyVal :=
  match g !! x with
  | Some b => Ret (value_of b)
  | None => Raise (NameError x)
  end.

(** [v.attr] on an imported module or class. *)
Definition getattr (v : PyVal) (attr : string) : result PyVal :=
  match v with
  | VName q => Ret (VName (q +:+ "." +:+ attr))
  | _ => Raise (AttributeError ("object has no attribute '" +:+ attr +:+ "'"))
  end.

(** Lines 2-16. *)
Definition imported_names (env : ImportEnv) : gmap string Binding :=
  <["_GenericAlias" := BVal (VName "typing._GenericAlias")]>
  (<["DataFrameModel" := BVal (VName "pandera.typing.common.DataFrameModel")]>
  (<["SeriesBase" := BVal (VName "pandera.typing.common.SeriesBase")]>
  (<["IndexBase" := BVal (VName "pandera.typing.common.IndexBase")]>
  (<["GenericDtype" := BVal (VName "pandera.typing.common.GenericDtype")]>
  (<["DataFrameBase" := BVal (VName "pandera.typing.common.DataFrameBase")]>
  (<["SchemaError" := BVal (VName "pandera.errors.SchemaError")]>
  (<["SchemaInitError" := BVal (VName "pandera.errors.SchemaInitError")]>
  (<["PYDANTIC_V2" := BVal (VBool (engines_PYDANTIC_V2 env))]>
  (<["core_schema" := BVal (VName "pydantic_core.core_schema")]>
  (<["GetCoreSchemaHandler" := BVal (VName "pydantic.GetCoreSchemaHandler")]>
  (<["get_args" := BVal (VName "typing.get_args")]>
  (<["Any" := BVal (VName "typing.Any")]>
  (<["TypeVar" := BVal (VName "typing.TypeVar")]>
  (<["Generic" := BVal (VName "typing.Generic")]>
  (<["TYPE_CHECKING" := BVal (VBool false)]>
  (<["functools" := BVal (VName "functools")]> ∅)))))))))))))))).

(** Lines 18-23: the guarded import. *)
Definition import_ps (env : ImportEnv) (g : gmap string Binding)
    : result (gmap string Binding) :=
  match import_pyspark_pandas env with
  | Ret ps => Ret (<["PYSPARK_INSTALLED" := BVal (VBool true)]> (<["ps" := BVal ps]> g))
  | Raise e =>
      if isinstance e "ImportError"
      then Ret (<["PYSPARK_INSTALLED" := BVal (VBool false)]> g)
      else Raise e
  end.

(** Lines 27-30. *)
Definition bind_T (g : gmap string Binding) : result (gmap string Binding) :=
  get type_checking <- load_name g "TYPE_CHECKING";
  if truthy type_checking
  then Ret (<["T" := BVal (VName "T")]> g)
  else get model <- load_name g "DataFrameModel";
       Ret (<["T" := BVal model]> g).

(** Lines 33-100: the body of [class _PydanticIntegrationMixIn].  Each [def]
    evaluates its parameter annotations, then its return annotation. *)
Definition mixin_class_body (g : gmap string Binding) : result ClassDef :=
  (* 36-44: def _get_schema_model(cls, field) *)
  get pydantic_v2 <- load_name g "PYDANTIC_V2";
  get hook <-
    (if truthy pydantic_v2
     then (* 48-58: def __get_pydantic_core_schema__(cls, _source_type: Any,
             _handler: GetCoreSchemaHandler) -> core_schema.CoreSchema *)
          get _any <- load_name g "Any";
          get _handler <- load_name g "GetCoreSchemaHandler";
          get core_schema <- load_name g "core_schema";
          get _returns <- getattr core_schema "CoreSchema";
          Ret "__get_pydantic_core_schema__"
     else (* 62-64: def __get_validators__(cls) *)
          Ret "__get_validators__");
  (* 66-89: def pydantic_validate(cls, obj: Any, schema_model) -> ps.DataFrame *)
  get _any <- load_name g "Any";
  get ps <- load_name g "ps";
  get _returns <- getattr ps "DataFrame";
  (* 91-100: def _pydantic_validate(cls, obj: Any, field) -> ps.DataFrame *)
  get _any <- load_name g "Any";
  get ps <- load_name g "ps";
  get _returns <- getattr ps "DataFrame";
  Ret {| class_name := "_PydanticIntegrationMixIn";
         class_bases := [];
         class_getitem := None;
         class_functions :=
           ["_get_schema_model"; hook; "pydantic_validate"; "_pydantic_validate"] |}.

(** [Generic[param]] in a list of bases. *)
Definition subscript_Generic (g : gmap string Binding) (param : string) : result PyVal :=
  get generic <- load_name g "Generic";
  get p <- load_name g param;
  _GenericAlias generic p.

(** Lines 106-118. *)
Definition DataFrame_class (g : gmap string Binding) : result ClassDef :=
  get base <- load_name g "DataFrameBase";
  get mixin <- load_name g "_PydanticIntegrationMixIn";
  get ps <- load_name g "ps";
  get native <- getattr ps "DataFrame";
  get generic <- subscript_Generic g "T";
  Ret {| class_name := "DataFrame";
         class_bases := [base; mixin; native; generic];
         class_getitem := Some DataFrame.__class_getitem__;
         class_functions := [] |}.

(** Lines 121-129. *)
Definition Series_class (g : gmap string Binding) : result ClassDef :=
  get base <- load_name g "SeriesBase";
  get ps <- load_name g "ps";
  get native <- getattr ps "Series";
  get generic <- subscript_Generic g "GenericDtype";
  Ret {| class_name := "Series";
         class_bases := [base; native; generic];
         class_getitem := Some Series.__class_getitem__;
         class_functions := [] |}.

(** Lines 132-136: the body holds a docstring only. *)
Definition Index_class (g : gmap string Binding) : result ClassDef :=
  get base <- load_name g "IndexBase";
  get ps <- load_name g "ps";
  get native <- getattr ps "Index";
  get generic <- subscript_Generic g "GenericDtype";
  Ret {| class_name := "Index";
         class_bases := [base; native; generic];
         class_getitem := None;
         class_functions := [] |}.

(** Lines 103-136: the guarded class statements. *)
Definition wrapper_classes (g : gmap string Binding) : result (gmap string Binding) :=
  get installed <- load_name g "PYSPARK_INSTALLED";
  if truthy installed
  then get dataframe <- DataFrame_class g;
       let g := <["DataFrame" := BClass dataframe]> g in
       get series <- Series_class g;
       let g := <["Series" := BClass series]> g in
       get index <- Index_class g;
       Ret (<["Index" := BClass index]> g)
  else Ret g.

(** The whole module: its global namespace when the import succeeds. *)
Definition exec_module (env : ImportEnv) : result (gmap string Binding) :=
  get g <- import_ps env (imported_names env);
  get g <- bind_T g;
  get mixin <- mixin_class_body g;
  wrapper_classes (<["_PydanticIntegrationMixIn" := BClass mixin]> g).

(** The class a name is bound to, if it is bound to a class. *)
Definition lookup_class (g : gmap string Binding) (x : string) : option ClassDef :=
  match g !! x with
  | Some (BClass c) => Some c
  | _ => None
  end.

(** The class the imported module binds [x] to. *)
Definition module_class (env : ImportEnv) (x : string) : result (option ClassDef) :=
  get g <- exec_module env;
  Ret (lookup_class g x).

Definition wrapper_names : list string := ["DataFrame"; "Series"; "Index"].

(** The class bound to [x] overrides generic subscription: its own body
    defines [__class_getitem__], and that function returns
    [_GenericAlias(cls, item)]. *)
Definition overrides_class_getitem (g : gmap string Binding) (x : string) : Prop :=
  exists c f,
    lookup_class g x = Some c
    /\ class_getitem c = Some f
    /\ forall cls item, f cls item = _GenericAlias cls item.

(** The class bound to [x] leaves generic subscription to its bases. *)
Definition inherits_class_getitem (g : gmap string Binding) (x : string) : Prop :=
  exists c, lookup_class g x = Some c /\ class_getitem c = None.

(** Two environments: pyspark present, pyspark absent. *)
Definition env_with_pyspark (v2 : bool) : ImportEnv :=
  {| import_pyspark_pandas := Ret (VName "pyspark.pandas");
     engines_PYDANTIC_V2 := v2 |}.

Definition env_without_pyspark (v2 : bool) : ImportEnv :=
  {| import_pyspark_pandas := Raise (ModuleNotFoundError "No module named 'pyspark'");
     engines_PYDANTIC_V2 := v2 |}.

(** A third one: pyspark is installed, and importing it fails with something
    other than an [ImportError]. *)
Definition env_broken_pyspark (v2 : bool) : ImportEnv :=
  {| import_pyspark_pandas :=
       Raise (AttributeError "module 'numpy' has no attribute 'bool'");
     engines_PYDANTIC_V2 := v2 |}.

(** The class [x] is among the bases of the class statement [c]. *)
Definition has_base (c : ClassDef) (x : string) : bool :=
  existsb (fun b => match b with
                    | VClass name => String.eqb name x
                    | _ => false
                    end) (class_bases c).


(** ** A reference collaborator

    Concrete collaborators on which the statements below are run. *)

Module Reference.

Record SchemaCheck : Type := { holds : PyVal -> bool; message : string }.

(** Modelled from the spec: the schema's [validate(obj, lazy) -> obj |
    raises SchemaError], which pandera defines outside this file.  "Lazy
    collects all violations before reporting; eager stops at the first":
    eager validation raises a [SchemaError] for the first check that fails,
    lazy validation one [SchemaErrors] for all of them, and an object that
    passes every check is handed back. *)
Definition validate_checks (checks : list SchemaCheck) (obj : PyVal) (lazy : bool)
    : result PyVal :=
  match List.filter (fun c => negb (holds c obj)) checks with
  | [] => Ret obj
  | c :: rest =>
      if lazy
      then Raise (SchemaErrors (String.concat "; " (map message (c :: rest))))
      else Raise (SchemaError (message c))
  end.

Definition is_even (obj : PyVal) : bool :=
  match obj with
  | VData n => Nat.even n
  | _ => false
  end.

Definition below_ten (obj : PyVal) : bool :=
  match obj with
  | VData n => Nat.ltb n 10
  | _ => false
  end.

Definition checks_of (schema : PyVal) : option (list SchemaCheck) :=
  match schema with
  | VName "EvenDigitSchema" =>
      Some [ {| holds := is_even; message := "value is odd" |};
             {| holds := below_ten; message := "value is above 9" |} ]
  | _ => None
  end.

(** [schema_model.to_schema()] for three kinds of model: one that compiles,
    one that is misconfigured, and objects without a [to_schema]. *)
Definition to_schema (schema_model : PyVal) : result PyVal :=
  match schema_model with
  | VName "EvenDigit" => Ret (VName "EvenDigitSchema")
  | VName "Misconfigured" => Raise (SchemaInitError "Invalid annotation 'a: 12'")
  | VName "Unvalidatable" => Ret VNone
  | _ => Raise (AttributeError "object has no attribute 'to_schema'")
  end.

Definition validate (schema obj : PyVal) (lazy : bool) : result PyVal :=
  match checks_of schema with
  | Some checks => validate_checks checks obj lazy
  | None => Raise (AttributeError "object has no attribute 'validate'")
  end.

(** A pydantic < 2 field for the annotation [DataFrame[model]], and one for
    the bare [DataFrame]. *)
Definition field_of (model : PyVal) : ModelField :=
  MkField (VClass "DataFrame") (Some [MkField model None]).

Definition bare_field : ModelField := MkField (VClass "DataFrame") None.

(** A collaborator that differs from [validate] on lazy calls only: it
    refuses them. *)
Definition validate_eager_only (schema obj : PyVal) (lazy : bool) : result PyVal :=
  if lazy
  then Raise (TypeError "validate() got an unexpected keyword argument 'lazy'")
  else validate schema obj false.

End Reference.

(** * Properties *)

(** ** Strings *)

Lemma prefix_append (a b : string) : String.prefix a (a +:+ b) = true.
Proof.
  induction a as [|c a IH].
  - destruct b; reflexivity.
  - change (String c a +:+ b) with (String c (a +:+ b)).
    cbn [String.prefix].
    destruct (ascii_dec c c) as [_|Hne]; [exact IH | now elim Hne].
Qed.

(** ** Exceptions *)

Lemma isinstance_from_exc (new exc : PyExc) (cls : string) :
  isinstance (from_exc new exc) cls = isinstance new cls.
Proof. reflexivity. Qed.

Lemma exc_str_from_exc (new exc : PyExc) : exc_str (from_exc new exc) = exc_str new.
Proof. reflexivity. Qed.

Lemma exc_cause_from_exc (new exc : PyExc) : exc_cause (from_exc new exc) = Some exc.
Proof. reflexivity. Qed.

(** ** The adapter, case by case *)

Ltac unfold_adapter :=
  unfold pydantic_validate, _pydantic_validate, __get_pydantic_core_schema__,
    _get_schema_model, call_to_schema, call_validate, try_except, ebind, elift,
    eret, eraise, rbind.

Section AdapterCases.

Variable to_schema : PyVal -> result PyVal.
Variable validate : PyVal -> PyVal -> bool -> result PyVal.

#[local] Abbreviation pydantic_validate := (pydantic_validate to_schema validate).

(** The first [try] block: [to_schema()] raised. *)
Lemma pydantic_validate_to_schema_raises cls obj m e :
  to_schema m = Raise e ->
  pydantic_validate cls obj m =
    ([CallToSchema m],
     Raise (if isinstance e "SchemaInitError"
            then from_exc (ValueError (guidance cls +:+ exc_str e)) e
            else e)).
Proof.
  intros Hm. unfold_adapter. rewrite Hm. destruct (isinstance e "SchemaInitError"); reflexivity.
Qed.

(** The second [try] block: [to_schema()] returned and [validate] ran. *)
Lemma pydantic_validate_to_schema_returns cls obj m schema :
  to_schema m = Ret schema ->
  pydantic_validate cls obj m =
    ([CallToSchema m; CallValidate schema obj false],
     match validate schema obj false with
     | Ret valid_data => Ret valid_data
     | Raise e =>
         Raise (if isinstance e "SchemaError"
                then from_exc (ValueError (exc_str e)) e
                else e)
     end).
Proof.
  intros Hm. unfold_adapter. rewrite Hm.
  destruct (validate schema obj false) as [v|e]; [reflexivity|].
  destruct (isinstance e "SchemaError"); reflexivity.
Qed.

(** The field extraction on a parameterized field. *)
Lemma _get_schema_model_parameterized cls field f0 rest :
  sub_fields field = Some (f0 :: rest) ->
  _get_schema_model cls field = Ret (type_ f0).
Proof.
  intros Hs. unfold _get_schema_model, sub_fields_truthy, sub_fields_getitem0.
  rewrite Hs. reflexivity.
Qed.

(** The field extraction on a field without sub-fields. *)
Lemma _get_schema_model_unparameterized cls field :
  sub_fields field = None \/ sub_fields field = Some [] ->
  _get_schema_model cls field =
    Raise (TypeError "Expected a typed pandera.typing.DataFrame, e.g. DataFrame[Schema]").
Proof.
  intros [Hs|Hs]; unfold _get_schema_model, sub_fields_truthy; rewrite Hs; reflexivity.
Qed.

(** [_pydantic_validate] is the extraction followed by the shared routine. *)
Lemma _pydantic_validate_cases cls obj field :
  _pydantic_validate to_schema validate cls obj field =
    match _get_schema_model cls field with
    | Ret schema_model => pydantic_validate cls obj schema_model
    | Raise e => ([], Raise e)
    end.
Proof.
  unfold _pydantic_validate, elift, ebind.
  destruct (_get_schema_model cls field) as [m|e]; [|reflexivity].
  destruct (pydantic_validate cls obj m); reflexivity.
Qed.

(** The pydantic >= 2 hook on a source type with at least one argument. *)
Lemma __get_pydantic_core_schema___parameterized cls src handler m rest :
  get_args src = m :: rest ->
  __get_pydantic_core_schema__ to_schema validate cls src handler =
    Ret (no_info_plain_validator_function
           (functools_partial (pydantic_validate cls) m)).
Proof.
  intros Ha. unfold __get_pydantic_core_schema__, tuple_getitem. rewrite Ha.
  reflexivity.
Qed.

(** The hook on a source type without arguments: [()[0]]. *)
Lemma __get_pydantic_core_schema___unparameterized cls src handler :
  get_args src = [] ->
  __get_pydantic_core_schema__ to_schema validate cls src handler =
    Raise (IndexError "tuple index out of range").
Proof.
  intros Ha. unfold __get_pydantic_core_schema__, tuple_getitem. rewrite Ha.
  reflexivity.
Qed.

End AdapterCases.

(** ** The contract of the adapter *)

Section AdapterContract.

Variable to_schema : PyVal -> result PyVal.
Variable validate : PyVal -> PyVal -> bool -> result PyVal.

#[local] Abbreviation pydantic_validate := (pydantic_validate to_schema validate).
#[local] Abbreviation _pydantic_validate := (_pydantic_validate to_schema validate).
#[local] Abbreviation __get_pydantic_core_schema__ :=
  (__get_pydantic_core_schema__ to_schema validate).
#[local] Abbreviation satisfies := (satisfies validate).
#[local] Abbreviation violates := (violates validate).

(** C1: when the schema model's [to_schema()] succeeds and the object
    satisfies the resulting schema, [pydantic_validate] raises nothing and
    returns the input object itself: after one call to [to_schema] and one
    eager call to [validate], the object [validate] handed back is returned
    as it is. *)
Theorem pydantic_validate_pass_through cls obj m schema :
  to_schema m = Ret schema ->
  satisfies schema obj ->
  pydantic_validate cls obj m =
    ([CallToSchema m; CallValidate schema obj false], Ret obj).
Proof.
  intros Hm Hsat. red in Hsat.
  rewrite (pydantic_validate_to_schema_returns _ _ _ _ _ _ Hm), Hsat.
  reflexivity.
Qed.

(** C2: when [to_schema()] succeeds and the object violates the resulting
    schema ([validate] raises a [SchemaError]), [pydantic_validate] raises a
    [ValueError] whose text is [str] of the schema error, chained to it;
    [validate] was called once, with [lazy=False]. *)
Theorem pydantic_validate_schema_error cls obj m schema e :
  to_schema m = Ret schema ->
  violates schema obj e ->
  exists err,
    pydantic_validate cls obj m =
      ([CallToSchema m; CallValidate schema obj false], Raise err)
    /\ isinstance err "ValueError" = true
    /\ exc_str err = exc_str e
    /\ exc_cause err = Some e.
Proof.
  intros Hm [Hv He].
  exists (from_exc (ValueError (exc_str e)) e).
  rewrite (pydantic_validate_to_schema_returns _ _ _ _ _ _ Hm), Hv, He.
  repeat split.
Qed.

(** C4: when [to_schema()] raises a [SchemaInitError], [pydantic_validate]
    raises a [ValueError] whose text is the guidance to revisit the model
    followed by the text of the original error, with the original error as
    its cause; [validate] is not called. *)
Theorem pydantic_validate_schema_init_error cls obj m e :
  to_schema m = Raise e ->
  isinstance e "SchemaInitError" = true ->
  exists err,
    pydantic_validate cls obj m = ([CallToSchema m], Raise err)
    /\ isinstance err "ValueError" = true
    /\ exc_str err = guidance cls +:+ exc_str e
    /\ String.prefix (guidance cls) (exc_str err) = true
    /\ exc_cause err = Some e.
Proof.
  intros Hm He.
  exists (from_exc (ValueError (guidance cls +:+ exc_str e)) e).
  rewrite (pydantic_validate_to_schema_raises _ _ _ _ _ _ Hm), He.
  rewrite exc_str_from_exc. cbn [ValueError exc_str].
  repeat split. apply prefix_append.
Qed.

(** C5: on a field descriptor without sub-fields, [_get_schema_model] raises
    a [TypeError], which is not a [ValueError]; [_pydantic_validate] raises
    it before any call to [to_schema] or [validate]. *)
Theorem _get_schema_model_type_error cls obj field :
  sub_fields field = None \/ sub_fields field = Some [] ->
  exists err,
    _get_schema_model cls field = Raise err
    /\ isinstance err "TypeError" = true
    /\ isinstance err "ValueError" = false
    /\ _pydantic_validate cls obj field = ([], Raise err).
Proof.
  intros Hs.
  exists (TypeError "Expected a typed pandera.typing.DataFrame, e.g. DataFrame[Schema]").
  rewrite _pydantic_validate_cases, (_get_schema_model_unparameterized _ _ Hs).
  repeat split.
Qed.

(** C8: for a field descriptor whose first sub-field carries the schema
    model [m], the pydantic < 2 validator [_pydantic_validate(obj, field)]
    is [pydantic_validate(obj, m)], trace and outcome; and for a source type
    whose first argument is [m], the validator the pydantic >= 2 hook
    registers computes [pydantic_validate(obj, m)] as well. *)
Theorem registration_paths_agree cls obj field f0 rest m :
  sub_fields field = Some (f0 :: rest) ->
  type_ f0 = m ->
  _pydantic_validate cls obj field = pydantic_validate cls obj m
  /\ (forall validator, In validator (__get_validators__ to_schema validate cls) ->
        validator obj field = pydantic_validate cls obj m)
  /\ (forall src handler args, get_args src = m :: args ->
        exists core, __get_pydantic_core_schema__ cls src handler = Ret core
                     /\ run_validator core obj = pydantic_validate cls obj m).
Proof.
  intros Hs Hm.
  assert (Hold : _pydantic_validate cls obj field = pydantic_validate cls obj m).
  { rewrite _pydantic_validate_cases, (_get_schema_model_parameterized _ _ _ _ Hs), Hm.
    reflexivity. }
  split; [exact Hold|]. split.
  - intros validator [<-|[]]. exact Hold.
  - intros src handler args Ha. eexists. split.
    + apply (__get_pydantic_core_schema___parameterized _ _ _ _ _ _ _ Ha).
    + reflexivity.
Qed.

(** C9: an exception of [to_schema()] that is not a [SchemaInitError], and
    an exception of [validate] that is not a [SchemaError], leave
    [pydantic_validate] as they are: same object, no [ValueError] around
    it. *)
Theorem other_exceptions_propagate cls obj m :
  (forall e, to_schema m = Raise e -> isinstance e "SchemaInitError" = false ->
     pydantic_validate cls obj m = ([CallToSchema m], Raise e))
  /\ (forall schema e, to_schema m = Ret schema ->
        validate schema obj false = Raise e -> isinstance e "SchemaError" = false ->
        pydantic_validate cls obj m =
          ([CallToSchema m; CallValidate schema obj false], Raise e)).
Proof.
  split.
  - intros e Hm He.
    rewrite (pydantic_validate_to_schema_raises _ _ _ _ _ _ Hm), He. reflexivity.
  - intros schema e Hm Hv He.
    rewrite (pydantic_validate_to_schema_returns _ _ _ _ _ _ Hm), Hv, He. reflexivity.
Qed.

(** C10: the pydantic >= 2 hook indexes [get_args(_source_type)] without a
    guard: on a source type without arguments it raises an [IndexError],
    which is not a [TypeError], and builds no validator. *)
Theorem core_schema_hook_index_error cls src handler :
  get_args src = [] ->
  __get_pydantic_core_schema__ cls src handler =
    Raise (IndexError "tuple index out of range")
  /\ isinstance (IndexError "tuple index out of range") "IndexError" = true
  /\ isinstance (IndexError "tuple index out of range") "TypeError" = false.
Proof.
  intros Ha. split; [|split; reflexivity].
  apply (__get_pydantic_core_schema___unparameterized _ _ _ _ _ Ha).
Qed.

End AdapterContract.

(** ** The contract on the reference collaborator *)

Section ReferenceRuns.

#[local] Abbreviation pydantic_validate :=
  (pydantic_validate Reference.to_schema Reference.validate).
#[local] Abbreviation _pydantic_validate :=
  (_pydantic_validate Reference.to_schema Reference.validate).
#[local] Abbreviation __get_pydantic_core_schema__ :=
  (__get_pydantic_core_schema__ Reference.to_schema Reference.validate).

(** [VData 4] passes both checks of the reference schema. *)
Lemma pydantic_validate_pass_through_witness :
  Reference.to_schema (VName "EvenDigit") = Ret (VName "EvenDigitSchema")
  /\ satisfies Reference.validate (VName "EvenDigitSchema") (VData 4)
  /\ pydantic_validate "DataFrame" (VData 4) (VName "EvenDigit") =
       ([CallToSchema (VName "EvenDigit");
         CallValidate (VName "EvenDigitSchema") (VData 4) false],
        Ret (VData 4)).
Proof.
  split; [reflexivity|]. split; [reflexivity|].
  apply (pydantic_validate_pass_through Reference.to_schema Reference.validate
           "DataFrame" (VData 4) (VName "EvenDigit") (VName "EvenDigitSchema"));
    reflexivity.
Defined.

(** [VData 11] fails both checks; the eager call reports the first one. *)
Lemma pydantic_validate_schema_error_witness :
  Reference.to_schema (VName "EvenDigit") = Ret (VName "EvenDigitSchema")
  /\ violates Reference.validate (VName "EvenDigitSchema") (VData 11)
       (SchemaError "value is odd")
  /\ exists err,
       pydantic_validate "DataFrame" (VData 11) (VName "EvenDigit") =
         ([CallToSchema (VName "EvenDigit");
           CallValidate (VName "EvenDigitSchema") (VData 11) false],
          Raise err)
       /\ isinstance err "ValueError" = true
       /\ exc_str err = "value is odd"
       /\ exc_cause err = Some (SchemaError "value is odd").
Proof.
  split; [reflexivity|]. split; [split; reflexivity|].
  apply (pydantic_validate_schema_error Reference.to_schema Reference.validate
           "DataFrame" (VData 11) (VName "EvenDigit") (VName "EvenDigitSchema")
           (SchemaError "value is odd")).
  - reflexivity.
  - split; reflexivity.
Defined.

Lemma pydantic_validate_schema_init_error_witness :
  Reference.to_schema (VName "Misconfigured") =
    Raise (SchemaInitError "Invalid annotation 'a: 12'")
  /\ isinstance (SchemaInitError "Invalid annotation 'a: 12'") "SchemaInitError" = true
  /\ exists err,
       pydantic_validate "DataFrame" (VData 4) (VName "Misconfigured") =
         ([CallToSchema (VName "Misconfigured")], Raise err)
       /\ isinstance err "ValueError" = true
       /\ exc_str err = guidance "DataFrame" +:+ "Invalid annotation 'a: 12'"
       /\ String.prefix (guidance "DataFrame") (exc_str err) = true
       /\ exc_cause err = Some (SchemaInitError "Invalid annotation 'a: 12'").
Proof.
  split; [reflexivity|]. split; [reflexivity|].
  apply (pydantic_validate_schema_init_error Reference.to_schema Reference.validate
           "DataFrame" (VData 4) (VName "Misconfigured")
           (SchemaInitError "Invalid annotation 'a: 12'"));
    reflexivity.
Defined.

Lemma _get_schema_model_type_error_witness :
  sub_fields Reference.bare_field = None
  /\ exists err,
       _get_schema_model "DataFrame" Reference.bare_field = Raise err
       /\ isinstance err "TypeError" = true
       /\ isinstance err "ValueError" = false
       /\ _pydantic_validate "DataFrame" (VData 4) Reference.bare_field = ([], Raise err).
Proof.
  split; [reflexivity|].
  apply (_get_schema_model_type_error Reference.to_schema Reference.validate
           "DataFrame" (VData 4) Reference.bare_field).
  left. reflexivity.
Defined.

Lemma registration_paths_agree_witness :
  sub_fields (Reference.field_of (VName "EvenDigit")) =
    Some [MkField (VName "EvenDigit") None]
  /\ DataFrame.__class_getitem__ (VClass "DataFrame") (VName "EvenDigit") =
       Ret (VAlias (VClass "DataFrame") [VName "EvenDigit"])
  /\ get_args (VAlias (VClass "DataFrame") [VName "EvenDigit"]) = [VName "EvenDigit"]
  /\ _pydantic_validate "DataFrame" (VData 11) (Reference.field_of (VName "EvenDigit")) =
       pydantic_validate "DataFrame" (VData 11) (VName "EvenDigit")
  /\ exists core,
       __get_pydantic_core_schema__ "DataFrame"
         (VAlias (VClass "DataFrame") [VName "EvenDigit"]) VNone = Ret core
       /\ run_validator core (VData 11) =
            pydantic_validate "DataFrame" (VData 11) (VName "EvenDigit").
Proof.
  split; [reflexivity|]. split; [reflexivity|]. split; [reflexivity|].
  destruct (registration_paths_agree Reference.to_schema Reference.validate
              "DataFrame" (VData 11) (Reference.field_of (VName "EvenDigit"))
              (MkField (VName "EvenDigit") None) [] (VName "EvenDigit")
              eq_refl eq_refl) as (Hold & _ & Hnew).
  split; [exact Hold|].
  apply (Hnew (VAlias (VClass "DataFrame") [VName "EvenDigit"]) VNone []).
  reflexivity.
Defined.

(** [VNone] has no [to_schema]; the schema of [Unvalidatable] has no
    [validate]. *)
Lemma other_exceptions_propagate_witness :
  isinstance (AttributeError "object has no attribute 'to_schema'") "SchemaInitError"
    = false
  /\ isinstance (AttributeError "object has no attribute 'validate'") "SchemaError"
       = false
  /\ pydantic_validate "DataFrame" (VData 4) VNone =
       ([CallToSchema VNone],
        Raise (AttributeError "object has no attribute 'to_schema'"))
  /\ pydantic_validate "DataFrame" (VData 4) (VName "Unvalidatable") =
       ([CallToSchema (VName "Unvalidatable"); CallValidate VNone (VData 4) false],
        Raise (AttributeError "object has no attribute 'validate'")).
Proof.
  split; [reflexivity|]. split; [reflexivity|]. split.
  - apply (proj1 (other_exceptions_propagate Reference.to_schema Reference.validate
                    "DataFrame" (VData 4) VNone)); reflexivity.
  - apply (proj2 (other_exceptions_propagate Reference.to_schema Reference.validate
                    "DataFrame" (VData 4) (VName "Unvalidatable")) VNone);
      reflexivity.
Defined.

Lemma core_schema_hook_index_error_witness :
  get_args (VClass "DataFrame") = []
  /\ __get_pydantic_core_schema__ "DataFrame" (VClass "DataFrame") VNone =
       Raise (IndexError "tuple index out of range")
  /\ isinstance (IndexError "tuple index out of range") "IndexError" = true
  /\ isinstance (IndexError "tuple index out of range") "TypeError" = false.
Proof.
  split; [reflexivity|].
  apply (core_schema_hook_index_error Reference.to_schema Reference.validate
           "DataFrame" (VClass "DataFrame") VNone).
  reflexivity.
Defined.

End ReferenceRuns.

(** ** Eager validation *)

(** X2: the adapter never validates lazily: two collaborators that agree on
    [lazy=False] give the same adapter, trace and outcome. *)
Lemma pydantic_validate_eager_only to_schema validate1 validate2 cls obj m :
  (forall schema, validate1 schema obj false = validate2 schema obj false) ->
  pydantic_validate to_schema validate1 cls obj m =
  pydantic_validate to_schema validate2 cls obj m.
Proof.
  intros Hagree.
  destruct (to_schema m) as [schema|e] eqn:Hm.
  - rewrite !(pydantic_validate_to_schema_returns _ _ _ _ _ _ Hm), Hagree. reflexivity.
  - rewrite !(pydantic_validate_to_schema_raises _ _ _ _ _ _ Hm). reflexivity.
Qed.

(** On the reference schema, the eager call reports the first failing check
    alone. *)
Lemma validate_checks_eager checks obj :
  Reference.validate_checks checks obj false =
    match List.find (fun c => negb (Reference.holds c obj)) checks with
    | Some c => Raise (SchemaError (Reference.message c))
    | None => Ret obj
    end.
Proof.
  unfold Reference.validate_checks.
  induction checks as [|c checks IH]; [reflexivity|].
  cbn [List.filter List.find].
  destruct (negb (Reference.holds c obj)); [reflexivity | exact IH].
Qed.

Example reference_eager_and_lazy :
  Reference.validate (VName "EvenDigitSchema") (VData 11) false =
    Raise (SchemaError "value is odd")
  /\ Reference.validate (VName "EvenDigitSchema") (VData 11) true =
       Raise (SchemaErrors "value is odd; value is above 9").
Proof. split; reflexivity. Qed.

(** ** Generic subscription *)

(** A class contributes no parameter. *)
Lemma _collect_parameters_class item :
  is_class item = true -> _collect_parameters [item] = Ret [].
Proof. destruct item; (discriminate || reflexivity). Qed.

(** A class is stored as it is. *)
Lemma stored_arg_class item : is_class item = true -> stored_arg item = item.
Proof. destruct item; (discriminate || reflexivity). Qed.

(** The alias of a class: one argument, the class itself. *)
Lemma _GenericAlias_class origin item :
  is_class item = true -> _GenericAlias origin item = Ret (VAlias origin [item]).
Proof.
  intros Hitem. unfold _GenericAlias.
  replace (match item with VTuple items => items | _ => [item] end) with [item]
    by (destruct item; (discriminate || reflexivity)).
  rewrite (_collect_parameters_class item Hitem). cbn [rbind map].
  rewrite (stored_arg_class item Hitem). reflexivity.
Qed.

(** The alias of a tuple, when it can be built, holds the elements of the
    tuple, with [typing._TypingEllipsis] replaced by [...]. *)
Lemma _GenericAlias_tuple origin items alias :
  _GenericAlias origin (VTuple items) = Ret alias ->
  alias = VAlias origin (map stored_arg items).
Proof.
  unfold _GenericAlias.
  destruct (_collect_parameters items); cbn [rbind]; intros H;
    [injection H as <-; reflexivity | discriminate H].
Qed.

(** The alias of anything but a tuple, when it can be built, holds that one
    argument. *)
Lemma _GenericAlias_not_tuple origin item alias :
  is_tuple item = false ->
  _GenericAlias origin item = Ret alias ->
  alias = VAlias origin [stored_arg item].
Proof.
  intros Hitem. unfold _GenericAlias.
  replace (match item with VTuple items => items | _ => [item] end) with [item]
    by (destruct item; (discriminate || reflexivity)).
  destruct (_collect_parameters [item]); cbn [rbind map]; intros H;
    [injection H as <-; reflexivity | discriminate H].
Qed.

(** A 1-tuple subscript and its element give the same alias, and the
    placeholder class of [typing] is not stored as itself. *)
Example subscripts_not_stored_as_given :
  DataFrame.__class_getitem__ (VClass "DataFrame") (VTuple [VName "Schema"]) =
    DataFrame.__class_getitem__ (VClass "DataFrame") (VName "Schema")
  /\ DataFrame.__class_getitem__ (VClass "DataFrame") VTypingEllipsis =
       Ret (VAlias (VClass "DataFrame") [VEllipsis])
  /\ DataFrame.__class_getitem__ (VClass "DataFrame")
       (VObject 0 (NotIterable "int")) =
       Raise (TypeError "'int' object is not iterable").
Proof. repeat split. Qed.

(** C6: for every schema model, a class, [DataFrame[model]] is an alias whose
    arguments are the 1-tuple [(model,)], so the model is recovered as given
    by [get_args(alias)[0]]; the aliases of two models each give back their
    own model, and differ when the models differ. *)
Theorem class_getitem_round_trip cls model other :
  is_class model = true ->
  is_class other = true ->
  exists alias alias',
    DataFrame.__class_getitem__ cls model = Ret alias
    /\ DataFrame.__class_getitem__ cls other = Ret alias'
    /\ get_args alias = [model]
    /\ tuple_getitem (get_args alias) 0 = Ret model
    /\ tuple_getitem (get_args alias') 0 = Ret other
    /\ (model <> other -> alias <> alias').
Proof.
  intros Hmodel Hother. unfold DataFrame.__class_getitem__.
  exists (VAlias cls [model]), (VAlias cls [other]).
  rewrite (_GenericAlias_class cls model Hmodel).
  rewrite (_GenericAlias_class cls other Hother).
  repeat split. intros Hne Heq. apply Hne. congruence.
Qed.

Lemma class_getitem_round_trip_witness :
  is_class (VName "A") = true
  /\ is_class (VName "B") = true
  /\ exists alias alias',
       DataFrame.__class_getitem__ (VClass "DataFrame") (VName "A") = Ret alias
       /\ DataFrame.__class_getitem__ (VClass "DataFrame") (VName "B") = Ret alias'
       /\ get_args alias = [VName "A"]
       /\ tuple_getitem (get_args alias) 0 = Ret (VName "A")
       /\ tuple_getitem (get_args alias') 0 = Ret (VName "B")
       /\ (VName "A" <> VName "B" -> alias <> alias').
Proof.
  split; [reflexivity|]. split; [reflexivity|].
  apply (class_getitem_round_trip (VClass "DataFrame") (VName "A") (VName "B"));
    reflexivity.
Defined.

(** X1: [Series] subscripts the same way: for a dtype or a model that is a
    class, [Series[item]] is an alias and [get_args(alias)[0]] is the item
    as given. *)
Lemma Series_class_getitem_round_trip cls item :
  is_class item = true ->
  exists alias,
    Series.__class_getitem__ cls item = Ret alias
    /\ tuple_getitem (get_args alias) 0 = Ret item.
Proof.
  intros Hitem. unfold Series.__class_getitem__.
  rewrite (_GenericAlias_class cls item Hitem). eexists. split; reflexivity.
Qed.

(** ** Importing the module *)

(** The guard of line 103 on its own: without [pyspark], the class
    statements are skipped. *)
Lemma wrapper_classes_skipped (g : gmap string Binding) :
  g !! "PYSPARK_INSTALLED" = Some (BVal (VBool false)) ->
  wrapper_classes g = Ret g.
Proof. intros Hflag. unfold wrapper_classes, load_name. rewrite Hflag. reflexivity. Qed.

(** The guarded import binds [ps] only when the import succeeds. *)
Lemma import_ps_failed env g e :
  import_pyspark_pandas env = Raise e ->
  isinstance e "ImportError" = true ->
  import_ps env g = Ret (<["PYSPARK_INSTALLED" := BVal (VBool false)]> g).
Proof. intros Himport He. unfold import_ps. rewrite Himport, He. reflexivity. Qed.

(** The mixin's class body reads the global [ps] whatever the flag says. *)
Lemma mixin_class_body_needs_ps (g : gmap string Binding) v2 :
  g !! "PYDANTIC_V2" = Some (BVal (VBool v2)) ->
  g !! "Any" = Some (BVal (VName "typing.Any")) ->
  g !! "GetCoreSchemaHandler" = Some (BVal (VName "pydantic.GetCoreSchemaHandler")) ->
  g !! "core_schema" = Some (BVal (VName "pydantic_core.core_schema")) ->
  g !! "ps" = None ->
  mixin_class_body g = Raise (NameError "ps").
Proof.
  intros Hv2 Hany Hhandler Hcore Hps. unfold mixin_class_body, load_name.
  rewrite Hv2, Hany, Hps. destruct v2; cbn [value_of truthy rbind].
  - rewrite Hhandler, Hcore. reflexivity.
  - reflexivity.
Qed.

(** C3: with [pyspark] missing, importing the module raises
    [NameError: name 'ps' is not defined], from the return annotation of
    [pydantic_validate] at line 67, for either value of [PYDANTIC_V2]. *)
Theorem import_without_pyspark_raises v2 :
  exec_module (env_without_pyspark v2) = Raise (NameError "ps").
Proof. destruct v2; vm_compute; reflexivity. Qed.

(** The same for every way the import of [pyspark.pandas] can fail with an
    [ImportError]. *)
Lemma import_error_raises_NameError env e :
  import_pyspark_pandas env = Raise e ->
  isinstance e "ImportError" = true ->
  exec_module env = Raise (NameError "ps").
Proof.
  intros Himport He. unfold exec_module.
  rewrite (import_ps_failed _ _ _ Himport He).
  destruct env as [imp [|]]; vm_compute; reflexivity.
Qed.

(** With [pyspark] present the import succeeds. *)
Lemma import_with_pyspark_succeeds v2 :
  exists g, exec_module (env_with_pyspark v2) = Ret g.
Proof.
  assert (H : returns (exec_module (env_with_pyspark v2)) = true).
  { destruct v2; vm_compute; reflexivity. }
  destruct (exec_module (env_with_pyspark v2)) as [g|e]; [eauto | discriminate H].
Qed.

(** The three class statements, as the imported module binds them. *)
Lemma module_class_DataFrame v2 :
  module_class (env_with_pyspark v2) "DataFrame" =
    Ret (Some {| class_name := "DataFrame";
                 class_bases :=
                   [VName "pandera.typing.common.DataFrameBase";
                    VClass "_PydanticIntegrationMixIn";
                    VName "pyspark.pandas.DataFrame";
                    VAlias (VName "typing.Generic")
                      [VName "pandera.typing.common.DataFrameModel"]];
                 class_getitem := Some DataFrame.__class_getitem__;
                 class_functions := [] |}).
Proof. destruct v2; vm_compute; reflexivity. Qed.

Lemma module_class_Series v2 :
  module_class (env_with_pyspark v2) "Series" =
    Ret (Some {| class_name := "Series";
                 class_bases :=
                   [VName "pandera.typing.common.SeriesBase";
                    VName "pyspark.pandas.Series";
                    VAlias (VName "typing.Generic")
                      [VName "pandera.typing.common.GenericDtype"]];
                 class_getitem := Some Series.__class_getitem__;
                 class_functions := [] |}).
Proof. destruct v2; vm_compute; reflexivity. Qed.

Lemma module_class_Index v2 :
  module_class (env_with_pyspark v2) "Index" =
    Ret (Some {| class_name := "Index";
                 class_bases :=
                   [VName "pandera.typing.common.IndexBase";
                    VName "pyspark.pandas.Index";
                    VAlias (VName "typing.Generic")
                      [VName "pandera.typing.common.GenericDtype"]];
                 class_getitem := None;
                 class_functions := [] |}).
Proof. destruct v2; vm_compute; reflexivity. Qed.

Lemma module_class_of_namespace env g x :
  exec_module env = Ret g -> module_class env x = Ret (lookup_class g x).
Proof. intros Hg. unfold module_class. rewrite Hg. reflexivity. Qed.

(** C7, as stated, fails: in the imported module [Index] has no
    [__class_getitem__] of its own, so not each of the three classes
    overrides generic subscription. *)
Lemma Index_does_not_override_class_getitem :
  ~ (exists g,
       exec_module (env_with_pyspark true) = Ret g
       /\ forall x, In x wrapper_names -> overrides_class_getitem g x).
Proof.
  intros (g & Hg & Hall).
  destruct (Hall "Index") as (c & f & Hc & Hf & _).
  { right; right; left; reflexivity. }
  pose proof (module_class_of_namespace _ _ "Index" Hg) as Hm.
  rewrite module_class_Index, Hc in Hm.
  injection Hm as Hm. subst c. discriminate Hf.
Qed.

(** C7, amended: in the imported module [DataFrame] and [Series] each define
    [__class_getitem__] in their own body, returning
    [_GenericAlias(cls, item)]; [Index] defines none and leaves generic
    subscription to its bases. *)
Theorem wrapper_class_getitem_overrides v2 :
  exists g,
    exec_module (env_with_pyspark v2) = Ret g
    /\ overrides_class_getitem g "DataFrame"
    /\ overrides_class_getitem g "Series"
    /\ inherits_class_getitem g "Index".
Proof.
  destruct (import_with_pyspark_succeeds v2) as [g Hg].
  exists g. split; [exact Hg|].
  pose proof (module_class_of_namespace _ _ "DataFrame" Hg) as Hd.
  pose proof (module_class_of_namespace _ _ "Series" Hg) as Hs.
  pose proof (module_class_of_namespace _ _ "Index" Hg) as Hi.
  rewrite module_class_DataFrame in Hd. rewrite module_class_Series in Hs.
  rewrite module_class_Index in Hi.
  injection Hd as Hd. injection Hs as Hs. injection Hi as Hi.
  split; [|split].
  - eexists _, _. split; [symmetry; exact Hd|]. split; reflexivity.
  - eexists _, _. split; [symmetry; exact Hs|]. split; reflexivity.
  - eexists. split; [symmetry; exact Hi|]. reflexivity.
Qed.

(** * Further properties of the module *)

(** ** The calls [pydantic_validate] makes *)

Section AdapterDiscipline.

Variable to_schema : PyVal -> result PyVal.
Variable validate : PyVal -> PyVal -> bool -> result PyVal.

#[local] Abbreviation pydantic_validate := (pydantic_validate to_schema validate).
#[local] Abbreviation __get_pydantic_core_schema__ :=
  (__get_pydantic_core_schema__ to_schema validate).

(** X3: [pydantic_validate] evaluates [to_schema()] exactly once, and
    [validate] at most once: only when [to_schema()] returned, on the schema
    it returned, on the object given, with [lazy=False]. *)
Theorem pydantic_validate_calls cls obj m :
  trace (pydantic_validate cls obj m) =
    match to_schema m with
    | Ret schema => [CallToSchema m; CallValidate schema obj false]
    | Raise _ => [CallToSchema m]
    end.
Proof.
  destruct (to_schema m) as [schema|e] eqn:Hm.
  - rewrite (pydantic_validate_to_schema_returns _ _ _ _ _ _ Hm). reflexivity.
  - rewrite (pydantic_validate_to_schema_raises _ _ _ _ _ _ Hm). reflexivity.
Qed.

(** X4: [pydantic_validate] returns a value exactly when both collaborators
    return, and the value is the one [validate] returned: no exception of a
    collaborator is swallowed, and nothing is substituted for the result. *)
Theorem pydantic_validate_returns_iff cls obj m v :
  outcome (pydantic_validate cls obj m) = Ret v <->
  exists schema, to_schema m = Ret schema /\ validate schema obj false = Ret v.
Proof.
  destruct (to_schema m) as [schema|e] eqn:Hm.
  - rewrite (pydantic_validate_to_schema_returns _ _ _ _ _ _ Hm). cbn [outcome snd].
    split.
    + intros Hv. exists schema. split; [reflexivity|].
      destruct (validate schema obj false); [exact Hv | discriminate Hv].
    + intros (schema' & Hs & Hv). injection Hs as <-. rewrite Hv. reflexivity.
  - rewrite (pydantic_validate_to_schema_raises _ _ _ _ _ _ Hm). cbn [outcome snd].
    split; [discriminate|]. intros (schema & Hs & _). discriminate Hs.
Qed.

(** X5: every exception that leaves [pydantic_validate] comes from a
    collaborator: it is the exception [to_schema()] or [validate] raised, or
    a [ValueError] that has that exception as its cause. *)
Theorem pydantic_validate_raises_from_collaborator cls obj m err :
  outcome (pydantic_validate cls obj m) = Raise err ->
  exists e,
    (to_schema m = Raise e
     \/ exists schema, to_schema m = Ret schema /\ validate schema obj false = Raise e)
    /\ (err = e \/ (isinstance err "ValueError" = true /\ exc_cause err = Some e)).
Proof.
  destruct (to_schema m) as [schema|e] eqn:Hm.
  - rewrite (pydantic_validate_to_schema_returns _ _ _ _ _ _ Hm). cbn [outcome snd].
    destruct (validate schema obj false) as [v|e] eqn:Hv; [discriminate|].
    intros Herr. injection Herr as <-. exists e. split; [right; eauto|].
    destruct (isinstance e "SchemaError"); [right; split; reflexivity | left; reflexivity].
  - rewrite (pydantic_validate_to_schema_raises _ _ _ _ _ _ Hm). cbn [outcome snd].
    intros Herr. injection Herr as <-. exists e. split; [left; reflexivity|].
    destruct (isinstance e "SchemaInitError");
      [right; split; reflexivity | left; reflexivity].
Qed.

(** X6: the converse of the guard in [_get_schema_model]: whenever it raises,
    the field has no sub-fields and the exception is the [TypeError] of lines
    39-42; the subscript [field.sub_fields[0]] itself never fails. *)
Theorem _get_schema_model_only_type_error cls field e :
  _get_schema_model cls field = Raise e ->
  e = TypeError "Expected a typed pandera.typing.DataFrame, e.g. DataFrame[Schema]"
  /\ (sub_fields field = None \/ sub_fields field = Some []).
Proof.
  unfold _get_schema_model, sub_fields_truthy, sub_fields_getitem0.
  destruct (sub_fields field) as [[|f0 rest]|]; cbn [negb rbind]; intros He.
  - injection He as <-. split; [reflexivity | right; reflexivity].
  - discriminate He.
  - injection He as <-. split; [reflexivity | left; reflexivity].
Qed.

(** X7: used as a pydantic >= 2 field type, [DataFrame[model]] validates
    against [model]: for a schema model, a class, the subscription gives an
    alias, the hook on the alias succeeds, and the validator it registers is
    [pydantic_validate(obj, model)]. *)
Theorem subscripted_DataFrame_validates_item cls_name cls item handler :
  is_class item = true ->
  exists alias core,
    DataFrame.__class_getitem__ cls item = Ret alias
    /\ __get_pydantic_core_schema__ cls_name alias handler = Ret core
    /\ forall obj, run_validator core obj = pydantic_validate cls_name obj item.
Proof.
  intros Hitem. exists (VAlias cls [item]). eexists. split; [|split].
  - unfold DataFrame.__class_getitem__. apply (_GenericAlias_class _ _ Hitem).
  - apply (__get_pydantic_core_schema___parameterized _ _ _ _ _ item []).
    reflexivity.
  - intros obj. reflexivity.
Qed.

(** X8: with a tuple subscript that [typing] accepts, the hook keeps the
    first element, as the alias stores it, and drops the others without any
    error: [DataFrame[first, ...]] validates against [first] alone; the
    empty tuple gives an alias on which the hook raises the [IndexError]. *)
Theorem tuple_subscript_validates_first cls_name cls first others alias handler :
  DataFrame.__class_getitem__ cls (VTuple (first :: others)) = Ret alias ->
  (exists core,
     __get_pydantic_core_schema__ cls_name alias handler = Ret core
     /\ forall obj,
          run_validator core obj = pydantic_validate cls_name obj (stored_arg first))
  /\ DataFrame.__class_getitem__ cls (VTuple []) = Ret (VAlias cls [])
  /\ __get_pydantic_core_schema__ cls_name (VAlias cls []) handler =
       Raise (IndexError "tuple index out of range").
Proof.
  intros Halias. apply _GenericAlias_tuple in Halias. subst alias.
  split; [|split].
  - eexists. split.
    + apply (__get_pydantic_core_schema___parameterized _ _ _ _ _
               (stored_arg first) (map stored_arg others)).
      reflexivity.
    + intros obj. reflexivity.
  - reflexivity.
  - apply __get_pydantic_core_schema___unparameterized. reflexivity.
Qed.

(** X9: the validator the pydantic >= 2 hook registers holds the schema
    model, not a compiled schema: every validation call evaluates
    [to_schema()] again, first thing. *)
Theorem registered_validator_recompiles cls src handler m args :
  get_args src = m :: args ->
  exists core,
    __get_pydantic_core_schema__ cls src handler = Ret core
    /\ forall obj, exists calls,
         trace (run_validator core obj) = CallToSchema m :: calls.
Proof.
  intros Ha. eexists. split.
  - apply (__get_pydantic_core_schema___parameterized _ _ _ _ _ _ _ Ha).
  - intros obj. unfold run_validator, functools_partial.
    destruct (to_schema m) as [schema|e] eqn:Hm.
    + rewrite (pydantic_validate_to_schema_returns _ _ _ _ _ _ Hm). eexists. reflexivity.
    + rewrite (pydantic_validate_to_schema_raises _ _ _ _ _ _ Hm). eexists. reflexivity.
Qed.

End AdapterDiscipline.

(** ** The module's namespace *)

(** X10: the guard of lines 18-23 catches [ImportError] alone: any other
    exception raised while importing [pyspark.pandas] leaves the import of
    this module as it is. *)
Theorem import_other_error_propagates env e :
  import_pyspark_pandas env = Raise e ->
  isinstance e "ImportError" = false ->
  exec_module env = Raise e.
Proof.
  intros Himport He. unfold exec_module, import_ps.
  rewrite Himport, He. reflexivity.
Qed.

(** X11: in the imported module [_PydanticIntegrationMixIn] is a base of
    [DataFrame] alone; the class statements of [Series] and [Index] do not
    list it. *)
Theorem pydantic_mixin_on_DataFrame_only v2 :
  exists dataframe series index,
    module_class (env_with_pyspark v2) "DataFrame" = Ret (Some dataframe)
    /\ has_base dataframe "_PydanticIntegrationMixIn" = true
    /\ module_class (env_with_pyspark v2) "Series" = Ret (Some series)
    /\ has_base series "_PydanticIntegrationMixIn" = false
    /\ module_class (env_with_pyspark v2) "Index" = Ret (Some index)
    /\ has_base index "_PydanticIntegrationMixIn" = false.
Proof.
  do 3 eexists.
  split; [apply module_class_DataFrame|]. split; [reflexivity|].
  split; [apply module_class_Series|]. split; [reflexivity|].
  split; [apply module_class_Index|]. reflexivity.
Qed.

(** ** The further properties on the reference collaborator *)

Section ReferenceChecks.

#[local] Abbreviation pydantic_validate :=
  (pydantic_validate Reference.to_schema Reference.validate).
#[local] Abbreviation __get_pydantic_core_schema__ :=
  (__get_pydantic_core_schema__ Reference.to_schema Reference.validate).

Lemma Series_class_getitem_round_trip_witness :
  is_class (VName "int") = true
  /\ exists alias,
       Series.__class_getitem__ (VClass "Series") (VName "int") = Ret alias
       /\ tuple_getitem (get_args alias) 0 = Ret (VName "int").
Proof.
  split; [reflexivity|].
  apply (Series_class_getitem_round_trip (VClass "Series") (VName "int")).
  reflexivity.
Defined.

Lemma pydantic_validate_returns_iff_witness :
  Reference.to_schema (VName "EvenDigit") = Ret (VName "EvenDigitSchema")
  /\ Reference.validate (VName "EvenDigitSchema") (VData 4) false = Ret (VData 4)
  /\ outcome (pydantic_validate "DataFrame" (VData 4) (VName "EvenDigit")) =
       Ret (VData 4).
Proof.
  split; [reflexivity|]. split; [reflexivity|].
  apply (proj2 (pydantic_validate_returns_iff Reference.to_schema Reference.validate
                  "DataFrame" (VData 4) (VName "EvenDigit") (VData 4))).
  exists (VName "EvenDigitSchema"). split; reflexivity.
Defined.

(** [VData 11] is rejected: the [ValueError] that leaves the adapter has the
    [SchemaError] of the first failing check as its cause. *)
Lemma pydantic_validate_raises_from_collaborator_witness :
  outcome (pydantic_validate "DataFrame" (VData 11) (VName "EvenDigit")) =
    Raise (from_exc (ValueError "value is odd") (SchemaError "value is odd"))
  /\ exists e,
       (Reference.to_schema (VName "EvenDigit") = Raise e
        \/ exists schema,
             Reference.to_schema (VName "EvenDigit") = Ret schema
             /\ Reference.validate schema (VData 11) false = Raise e)
       /\ (from_exc (ValueError "value is odd") (SchemaError "value is odd") = e
           \/ (isinstance
                 (from_exc (ValueError "value is odd") (SchemaError "value is odd"))
                 "ValueError" = true
               /\ exc_cause
                    (from_exc (ValueError "value is odd") (SchemaError "value is odd")) =
                    Some e)).
Proof.
  split; [reflexivity|].
  apply (pydantic_validate_raises_from_collaborator Reference.to_schema
           Reference.validate "DataFrame" (VData 11) (VName "EvenDigit")).
  reflexivity.
Defined.

Lemma _get_schema_model_only_type_error_witness :
  _get_schema_model "DataFrame" Reference.bare_field =
    Raise (TypeError "Expected a typed pandera.typing.DataFrame, e.g. DataFrame[Schema]")
  /\ (sub_fields Reference.bare_field = None
      \/ sub_fields Reference.bare_field = Some []).
Proof.
  split; [reflexivity|].
  apply (_get_schema_model_only_type_error "DataFrame" Reference.bare_field
           (TypeError "Expected a typed pandera.typing.DataFrame, e.g. DataFrame[Schema]")).
  reflexivity.
Defined.

Lemma subscripted_DataFrame_validates_item_witness :
  is_class (VName "EvenDigit") = true
  /\ exists alias core,
       DataFrame.__class_getitem__ (VClass "DataFrame") (VName "EvenDigit") = Ret alias
       /\ __get_pydantic_core_schema__ "DataFrame" alias VNone = Ret core
       /\ forall obj,
            run_validator core obj = pydantic_validate "DataFrame" obj (VName "EvenDigit").
Proof.
  split; [reflexivity|].
  apply (subscripted_DataFrame_validates_item Reference.to_schema Reference.validate
           "DataFrame" (VClass "DataFrame") (VName "EvenDigit") VNone).
  reflexivity.
Defined.

(** [DataFrame[EvenDigit, Other]]: the validator is the one of [EvenDigit]. *)
Lemma tuple_subscript_validates_first_witness :
  DataFrame.__class_getitem__ (VClass "DataFrame")
    (VTuple [VName "EvenDigit"; VName "Other"]) =
    Ret (VAlias (VClass "DataFrame") [VName "EvenDigit"; VName "Other"])
  /\ (exists core,
        __get_pydantic_core_schema__ "DataFrame"
          (VAlias (VClass "DataFrame") [VName "EvenDigit"; VName "Other"]) VNone =
          Ret core
        /\ forall obj,
             run_validator core obj =
             pydantic_validate "DataFrame" obj (stored_arg (VName "EvenDigit")))
  /\ DataFrame.__class_getitem__ (VClass "DataFrame") (VTuple []) =
       Ret (VAlias (VClass "DataFrame") [])
  /\ __get_pydantic_core_schema__ "DataFrame" (VAlias (VClass "DataFrame") []) VNone =
       Raise (IndexError "tuple index out of range").
Proof.
  split; [reflexivity|].
  apply (tuple_subscript_validates_first Reference.to_schema Reference.validate
           "DataFrame" (VClass "DataFrame") (VName "EvenDigit") [VName "Other"]
           (VAlias (VClass "DataFrame") [VName "EvenDigit"; VName "Other"]) VNone).
  reflexivity.
Defined.

Lemma registered_validator_recompiles_witness :
  get_args (VAlias (VClass "DataFrame") [VName "Misconfigured"]) = [VName "Misconfigured"]
  /\ exists core,
       __get_pydantic_core_schema__ "DataFrame"
         (VAlias (VClass "DataFrame") [VName "Misconfigured"]) VNone = Ret core
       /\ forall obj, exists calls,
            trace (run_validator core obj) = CallToSchema (VName "Misconfigured") :: calls.
Proof.
  split; [reflexivity|].
  apply (registered_validator_recompiles Reference.to_schema Reference.validate
           "DataFrame" (VAlias (VClass "DataFrame") [VName "Misconfigured"]) VNone
           (VName "Misconfigured") []).
  reflexivity.
Defined.

Lemma import_other_error_propagates_witness :
  isinstance (AttributeError "module 'numpy' has no attribute 'bool'") "ImportError"
    = false
  /\ exec_module (env_broken_pyspark true) =
       Raise (AttributeError "module 'numpy' has no attribute 'bool'").
Proof.
  split; [reflexivity|].
  apply (import_other_error_propagates (env_broken_pyspark true)
           (AttributeError "module 'numpy' has no attribute 'bool'"));
    reflexivity.
Defined.

End ReferenceChecks.

(** [validate_eager_only] refuses lazy calls; the adapter does not notice. *)
Lemma pydantic_validate_eager_only_witness :
  (forall schema,
     Reference.validate schema (VData 11) false =
     Reference.validate_eager_only schema (VData 11) false)
  /\ Reference.validate (VName "EvenDigitSchema") (VData 11) true <>
       Reference.validate_eager_only (VName "EvenDigitSchema") (VData 11) true
  /\ pydantic_validate Reference.to_schema Reference.validate
       "DataFrame" (VData 11) (VName "EvenDigit") =
     pydantic_validate Reference.to_schema Reference.validate_eager_only
       "DataFrame" (VData 11) (VName "EvenDigit").
Proof.
  split; [intros schema; reflexivity|]. split; [discriminate|].
  apply (pydantic_validate_eager_only Reference.to_schema Reference.validate
           Reference.validate_eager_only "DataFrame" (VData 11) (VName "EvenDigit")).
  intros schema. reflexivity.
Defined.
